(** * edgefxn.py: fetching the Function native libraries

    A shallow embedding of [src/edgefxn.py], the script that downloads the
    prebuilt Function binaries from the CDN into the Unity package tree,
    together with the properties of it that the specification states.

    The script talks to the network (through [requests.get]), to the file
    system (through [open(path, "wb")]) and to the terminal (through
    [print]).  These are modelled by an explicit [World] that is threaded
    through an exception monad; the network itself is a parameter. *)

From Stdlib Require Import ZArith Strings.Byte Strings.Ascii.
From stdpp Require Import base option list gmap strings.

#[local] Set Warnings "-register-all".
Local Open Scope Z_scope.

(** ** Python values *)

(** The objects the script handles besides paths and responses: command
    line strings and whatever [response.json()] decodes.  A JSON number is
    kept as its text; a JSON object is a Python [dict] keyed by strings. *)
Inductive pyval : Type :=
  | PyNone
  | PyBool (b : bool)
  | PyNum (text : string)
  | PyStr (s : string)
  | PyList (items : list pyval)
  | PyDict (d : gmap string pyval).

(** Truth value of a [str]: only the empty string is falsy. *)
Definition str_truthy (s : string) : bool :=
  match s with
  | EmptyString => false
  | String _ _ => true
  end.

(** ** pathlib *)

(** A relative [PurePosixPath], as its tuple of parts.  Every path of the
    script is relative to the working directory, so rooted paths are left
    out of the model. *)
Abbreviation Path := (list string).

Module pathlib.

(** Cut a string at every ["/"]; [cur] collects the current component in
    reverse. *)
Fixpoint split_slash (cur : string) (s : string) : list string :=
  match s with
  | EmptyString => [String.rev cur]
  | String c s' =>
      if Ascii.eqb c "/"%char
      then String.rev cur :: split_slash EmptyString s'
      else split_slash (String c cur) s'
  end.

(** pathlib drops empty components and ["."] components when parsing. *)
Definition kept (part : string) : bool :=
  negb (String.eqb part EmptyString || String.eqb part ".").

(** [Path(s)] for a relative [s]. *)
Definition of_str (s : string) : Path :=
  List.filter kept (split_slash EmptyString s).

(** [p / s] for a relative [s]. *)
Definition truediv (p : Path) (s : string) : Path := p ++ of_str s.

(** [p.parent]; the parent of the empty path is itself. *)
Definition parent (p : Path) : Path := removelast p.

(** [p.name]; empty for the empty path. *)
Definition name (p : Path) : string := List.last p EmptyString.

Fixpoint join_slash (ps : list string) : string :=
  match ps with
  | [] => EmptyString
  | [x] => x
  | x :: rest => x +:+ "/" +:+ join_slash rest
  end.

(** [str(p)]: the parts joined by ["/"], and ["."] for the empty path. *)
Definition str (p : Path) : string :=
  match p with
  | [] => "."
  | _ => join_slash p
  end.

End pathlib.

Infix "/:" := pathlib.truediv (at level 40, left associativity).

(** ** Exceptions and the world *)

(** The exceptions the script can die from.  None is ever caught. *)
Inductive exn : Type :=
  | RequestException              (* [get] could not complete the request *)
  | HTTPError (status : Z)        (* [raise_for_status] on a 4xx or 5xx *)
  | JSONDecodeError               (* [response.json()] on a body that is no JSON *)
  | KeyError (key : string)       (* [release[key]] on a dict without [key] *)
  | TypeError                     (* [release[key]] on a value that is no dict *)
  | FileNotFoundError             (* [open]: a directory of the path is missing *)
  | NotADirectoryError            (* [open]: the parent is a regular file *)
  | IsADirectoryError.            (* [open]: the path names a directory *)

Inductive result (A : Type) : Type :=
  | Ok (a : A)
  | Raise (e : exn).
Arguments Ok {A} a.
Arguments Raise {A} e.

(** What [requests.get] hands back: status line and body, and what
    [response.json()] makes of the body ([None] when it is not JSON). *)
Record Response : Type := mkResponse {
  status_code : Z;
  content : list byte;
  json : option pyval
}.

Inductive get_result : Type :=
  | Responded (r : Response)
  | Unreachable.

(** An entry of the directory tree below the working directory. *)
Inductive node : Type :=
  | Dir
  | File (data : list byte).

(** The part of the world the script can see or change: the directory tree
    (keyed by path; the working directory itself is the empty path), the URLs
    requested so far, and the lines printed so far.  Paths are looked up as
    they are written: [..] and symbolic links are not resolved, and
    permissions and disk space are not modelled. *)
Record World : Type := mkWorld {
  fs : gmap Path node;
  requests : list string;
  stdout : list string
}.

Definition set_fs (f : gmap Path node) (w : World) : World :=
  mkWorld f (requests w) (stdout w).
Definition log_request (url : string) (w : World) : World :=
  mkWorld (fs w) (requests w ++ [url]) (stdout w).
Definition log_line (line : string) (w : World) : World :=
  mkWorld (fs w) (requests w) (stdout w ++ [line]).

(** [stat]: the working directory always exists. *)
Definition stat (f : gmap Path node) (p : Path) : option node :=
  match p with
  | [] => Some Dir
  | _ => f !! p
  end.

(** Reading a file back, as [open(path, "rb").read()] would. *)
Definition read_bytes (w : World) (p : Path) : option (list byte) :=
  match stat (fs w) p with
  | Some (File data) => Some data
  | _ => None
  end.

(** ** The monad of the script *)

(** A computation runs in a world and either returns or raises; what it did
    to the world before raising stays done. *)
Definition M (A : Type) : Type := World -> result A * World.

Definition ret {A} (a : A) : M A := fun w => (Ok a, w).
Definition raise {A} (e : exn) : M A := fun w => (Raise e, w).
Definition bind {A B} (m : M A) (k : A -> M B) : M B :=
  fun w =>
    match m w with
    | (Ok a, w') => k a w'
    | (Raise e, w') => (Raise e, w')
    end.

Notation "x <- m ;; k" := (bind m (fun x => k))
  (at level 100, m at next level, right associativity).
Notation "m ;;; k" := (bind m (fun _ => k))
  (at level 100, right associativity).

(** [for x in xs: body(x)] *)
Fixpoint for_each {A} (xs : list A) (body : A -> M unit) : M unit :=
  match xs with
  | [] => ret tt
  | x :: rest => body x ;;; for_each rest body
  end.

(** Exit status of the interpreter: 0 when the script runs to its end, 1 when
    it dies from an uncaught exception. *)
Definition exit_status {A} (r : result A) : Z :=
  match r with
  | Ok _ => 0
  | Raise _ => 1
  end.

(** ** Predicates on strings *)

(** [needle in hay] *)
Definition is_substring (needle hay : string) : Prop :=
  exists before after, hay = before +:+ needle +:+ after.

(** [s.endswith(suffix)] *)
Definition ends_with (suffix s : string) : Prop :=
  exists before, s = before +:+ suffix.


(** ** The manifest entries *)

(** One entry of [LIBS]: a dict with the keys ["url"] and ["path"]. *)
Record lib : Type := mkLib { url : string; path : Path }.

Definition LIB_PATH_BASE : Path :=
  pathlib.of_str "Packages" /: "ai.fxn.fxn3d" /: "Plugins".

(** The line [_download_fxnc] prints once an entry is on disk. *)
Definition wrote_line (l : lib) : string :=
  "Wrote " +:+ url l +:+ " to path: " +:+ pathlib.str (path l).

(** ** Sample worlds *)

(** Concrete networks and directory trees on which the statements below are
    exercised. *)
Module Sample.

Definition body : list byte := [x7f; x45; x4c; x46; x00; x0a; x0d; xff].

Definition binary (status : Z) : Response := mkResponse status body None.

Definition release : Response :=
  mkResponse 200 [] (Some (PyDict {[ "tag_name" := PyStr "v1.2.3" ]})).

(** A CDN that serves every URL. *)
Definition net_ok : nat -> string -> get_result :=
  fun _ _ => Responded (binary 200).

(** The first request is answered by 300 Multiple Choices, the rest are
    served. *)
Definition net_300_first : nat -> string -> get_result :=
  fun n _ => if decide (n = 0%nat) then Responded (binary 300)
             else Responded (binary 200).

(** The second request is answered by 404 Not Found, the rest are served. *)
Definition net_404_second : nat -> string -> get_result :=
  fun n _ => if decide (n = 1%nat) then Responded (binary 404)
             else Responded (binary 200).

(** The releases API answers the first request, the CDN is down. *)
Definition net_release : nat -> string -> get_result :=
  fun n _ => if decide (n = 0%nat) then Responded release else Unreachable.

Definition str_other : pyval -> string := fun _ => "?".

Definition mkdirs (dirs : list Path) : gmap Path node :=
  list_to_map ((fun d => (d, Dir)) <$> dirs).

(** The package as checked out, with every plugin directory in place. *)
Definition plugin_dirs : list Path :=
  [ ["Packages"]; ["Packages"; "ai.fxn.fxn3d"]; LIB_PATH_BASE;
    LIB_PATH_BASE /: "Android";
    LIB_PATH_BASE /: "Android" /: "arm64-v8a";
    LIB_PATH_BASE /: "Android" /: "armeabi-v7a";
    LIB_PATH_BASE /: "Android" /: "x86";
    LIB_PATH_BASE /: "Android" /: "x86_64";
    LIB_PATH_BASE /: "macOS";
    LIB_PATH_BASE /: "Web";
    LIB_PATH_BASE /: "Windows" ].

Definition checkout : World := mkWorld (mkdirs plugin_dirs) [] [].

(** The same with an older Windows library already there. *)
Definition stale : World :=
  mkWorld (<[LIB_PATH_BASE /: "Windows" /: "Function.dll" := File [x4d; x5a]]>
             (mkdirs plugin_dirs)) [] [].


(** The releases API answers the first request, the CDN serves the rest. *)
Definition net_latest : nat -> string -> get_result :=
  fun n _ => if decide (n = 0%nat) then Responded release
             else Responded (binary 200).

(** An answer with status 404 whose body is nevertheless a release object. *)
Definition not_found : Response :=
  mkResponse 404 [] (Some (PyDict {[ "tag_name" := PyStr "v1.2.3" ]})).

Definition net_not_found : nat -> string -> get_result :=
  fun _ _ => Responded not_found.

(** An answer whose body is a JSON object without a tag. *)
Definition untagged : Response :=
  mkResponse 200 [] (Some (PyDict {[ "message" := PyStr "Not Found" ]})).

Definition net_untagged : nat -> string -> get_result :=
  fun _ _ => Responded untagged.

(** An answer whose body is a JSON array. *)
Definition listing : Response :=
  mkResponse 200 [] (Some (PyList [PyStr "v1.2.3"])).

Definition net_listing : nat -> string -> get_result :=
  fun _ _ => Responded listing.


End Sample.

(** ** The script *)

Section Script.

(** The network: what the [n]-th request of the run, for [url], comes back
    with.  ([n] counts the requests issued before it.) *)
Variable net : nat -> string -> get_result.

(** Python's [str()] on the values that are not strings.  Only a release
    tag that is not a JSON string ever reaches it. *)
Variable str_other : pyval -> string.

(** [requests.get(url)] *)
Definition get (url : string) : M Response :=
  fun w =>
    match net (length (requests w)) url with
    | Responded r => (Ok r, log_request url w)
    | Unreachable => (Raise RequestException, log_request url w)
    end.

(** [response.raise_for_status()]: requests raises on the client error and
    server error classes, and on nothing else. *)
Definition raise_for_status (response : Response) : M unit :=
  if (400 <=? status_code response) && (status_code response <? 600)
  then raise (HTTPError (status_code response))
  else ret tt.

(** [response.json()] *)
Definition response_json (response : Response) : M pyval :=
  match json response with
  | Some v => ret v
  | None => raise JSONDecodeError
  end.

(** [obj[key]] for a string [key] *)
Definition getitem (obj : pyval) (key : string) : M pyval :=
  match obj with
  | PyDict d =>
      match d !! key with
      | Some v => ret v
      | None => raise (KeyError key)
      end
  | _ => raise TypeError
  end.

(** [open(path, "wb")]: creates the file or empties it.  It creates no
    directory. *)
Definition open_wb (path : Path) : M Path :=
  fun w =>
    match stat (fs w) path with
    | Some Dir => (Raise IsADirectoryError, w)
    | _ =>
        match stat (fs w) (pathlib.parent path) with
        | Some Dir => (Ok path, set_fs (<[path := File []]> (fs w)) w)
        | Some (File _) => (Raise NotADirectoryError, w)
        | None => (Raise FileNotFoundError, w)
        end
    end.

(** [f.write(data)] on a file opened in binary mode: the bytes go to the
    end of the file as they are. *)
Definition write (f : Path) (data : list byte) : M unit :=
  fun w =>
    match fs w !! f with
    | Some (File old) => (Ok tt, set_fs (<[f := File (old ++ data)]> (fs w)) w)
    | _ => (Ok tt, w)
    end.

(** [print(line)] *)
Definition print (line : string) : M unit :=
  fun w => (Ok tt, log_line line w).

(** [format(v, "")], which is what [{v}] in an f-string does. *)
Definition fmt (v : pyval) : string :=
  match v with
  | PyStr s => s
  | _ => str_other v
  end.

Definition _download_fxnc (url : string) (path : Path) : M unit :=
  response <- get url ;;
  raise_for_status response ;;;
  (f <- open_wb path ;;
   write f (content response)) ;;;
  print ("Wrote " +:+ url +:+ " to path: " +:+ pathlib.str path).

Definition _get_latest_version : M pyval :=
  response <- get "https://api.github.com/repos/fxnai/fxnc/releases/latest" ;;
  raise_for_status response ;;;
  release <- response_json response ;;
  getitem release "tag_name".

Definition LIBS (version : pyval) : list lib :=
  [ mkLib ("https://cdn.fxn.ai/edgefxn/" +:+ fmt version +:+ "/libFunction-android-arm64-v8a.so")
          (LIB_PATH_BASE /: "Android" /: "arm64-v8a" /: "libFunction.so");
    mkLib ("https://cdn.fxn.ai/edgefxn/" +:+ fmt version +:+ "/libFunction-android-armeabi-v7a.so")
          (LIB_PATH_BASE /: "Android" /: "armeabi-v7a" /: "libFunction.so");
    mkLib ("https://cdn.fxn.ai/edgefxn/" +:+ fmt version +:+ "/libFunction-android-x86.so")
          (LIB_PATH_BASE /: "Android" /: "x86" /: "libFunction.so");
    mkLib ("https://cdn.fxn.ai/edgefxn/" +:+ fmt version +:+ "/libFunction-android-x86_64.so")
          (LIB_PATH_BASE /: "Android" /: "x86_64" /: "libFunction.so");
    mkLib ("https://cdn.fxn.ai/edgefxn/" +:+ fmt version +:+ "/Function-macos.dylib")
          (LIB_PATH_BASE /: "macOS" /: "Function.dylib");
    mkLib ("https://cdn.fxn.ai/edgefxn/" +:+ fmt version +:+ "/Function.wasm")
          (LIB_PATH_BASE /: "Web" /: "libFunction.so");
    mkLib ("https://cdn.fxn.ai/edgefxn/" +:+ fmt version +:+ "/Function-win64.dll")
          (LIB_PATH_BASE /: "Windows" /: "Function.dll") ].

(** [args.version if args.version else _get_latest_version()], where
    [args.version] is [None] without the flag and the given string with
    it. *)
Definition resolve_version (args_version : option string) : M pyval :=
  match args_version with
  | Some s => if str_truthy s then ret (PyStr s) else _get_latest_version
  | None => _get_latest_version
  end.

Definition main (args_version : option string) : M unit :=
  version <- resolve_version args_version ;;
  for_each (LIBS version) (fun lib => _download_fxnc (url lib) (path lib)).

(** The body of the loop of [main]. *)
Abbreviation download := (fun l : lib => _download_fxnc (url l) (path l)).

(** Running the script as a program: the exit status and the world it
    leaves. *)
Definition run (args_version : option string) (w : World) : Z * World :=
  let (r, w') := main args_version w in (exit_status r, w').

(** *** Strings *)

Lemma string_app_assoc (a b c : string) : (a +:+ b) +:+ c = a +:+ b +:+ c.
Proof.
  induction a as [|ch a IH]; [done|].
  change (String ch ((a +:+ b) +:+ c) = String ch (a +:+ b +:+ c)).
  by rewrite IH.
Qed.

(** A suffix of the tail of a string is a suffix of the string. *)
Lemma ends_with_app (suffix a b : string) :
  ends_with suffix b -> ends_with suffix (a +:+ b).
Proof.
  intros [before ->]. exists (a +:+ before). by rewrite string_app_assoc.
Qed.

(** *** How the steps behave *)

Lemma get_responded url w r :
  net (length (requests w)) url = Responded r ->
  get url w = (Ok r, log_request url w).
Proof. intros H. unfold get. by rewrite H. Qed.

Lemma get_unreachable url w :
  net (length (requests w)) url = Unreachable ->
  get url w = (Raise RequestException, log_request url w).
Proof. intros H. unfold get. by rewrite H. Qed.

Lemma raise_for_status_passes r w :
  ~ (400 <= status_code r < 600) ->
  raise_for_status r w = (Ok tt, w).
Proof.
  intros H. unfold raise_for_status.
  destruct (400 <=? status_code r) eqn:Hlo, (status_code r <? 600) eqn:Hhi;
    simpl; try reflexivity.
  apply Z.leb_le in Hlo. apply Z.ltb_lt in Hhi. lia.
Qed.

Lemma raise_for_status_raises r w :
  400 <= status_code r < 600 ->
  raise_for_status r w = (Raise (HTTPError (status_code r)), w).
Proof.
  intros [Hlo Hhi]. unfold raise_for_status.
  apply Z.leb_le in Hlo. apply Z.ltb_lt in Hhi. by rewrite Hlo, Hhi.
Qed.

Lemma open_wb_creates path w :
  stat (fs w) path <> Some Dir ->
  stat (fs w) (pathlib.parent path) = Some Dir ->
  open_wb path w = (Ok path, set_fs (<[path := File []]> (fs w)) w).
Proof.
  intros Hfile Hdir. unfold open_wb. rewrite Hdir.
  destruct (stat (fs w) path) as [[|data]|]; [by destruct Hfile | done | done].
Qed.

Lemma open_wb_no_parent path w :
  stat (fs w) path <> Some Dir ->
  stat (fs w) (pathlib.parent path) = None ->
  open_wb path w = (Raise FileNotFoundError, w).
Proof.
  intros Hfile Hdir. unfold open_wb. rewrite Hdir.
  destruct (stat (fs w) path) as [[|data]|]; [by destruct Hfile | done | done].
Qed.

(** The outcome of a download whose request was answered without an error
    status and whose parent directory is there. *)
Lemma download_written url path w r :
  net (length (requests w)) url = Responded r ->
  ~ (400 <= status_code r < 600) ->
  stat (fs w) path <> Some Dir ->
  stat (fs w) (pathlib.parent path) = Some Dir ->
  _download_fxnc url path w =
    (Ok tt,
     log_line ("Wrote " +:+ url +:+ " to path: " +:+ pathlib.str path)
       (set_fs (<[path := File (content r)]> (fs w)) (log_request url w))).
Proof.
  intros Hnet Hstatus Hfile Hdir. unfold _download_fxnc, bind.
  rewrite (get_responded _ _ _ Hnet), (raise_for_status_passes _ _ Hstatus).
  rewrite open_wb_creates by done.
  unfold write, print. cbn [fs set_fs log_request].
  rewrite lookup_insert_eq, insert_insert_eq. done.
Qed.

(** The outcome of a download whose request was answered by an error
    status, or not at all. *)
Lemma download_http_error url path w r :
  net (length (requests w)) url = Responded r ->
  400 <= status_code r < 600 ->
  _download_fxnc url path w =
    (Raise (HTTPError (status_code r)), log_request url w).
Proof.
  intros Hnet Hstatus. unfold _download_fxnc, bind.
  by rewrite (get_responded _ _ _ Hnet), (raise_for_status_raises _ _ Hstatus).
Qed.

Lemma download_unreachable url path w :
  net (length (requests w)) url = Unreachable ->
  _download_fxnc url path w = (Raise RequestException, log_request url w).
Proof.
  intros Hnet. unfold _download_fxnc, bind.
  by rewrite (get_unreachable _ _ Hnet).
Qed.

(** Whatever happens to it, a download issues one request, for its URL. *)
Lemma download_requests url path w :
  requests (_download_fxnc url path w).2 = requests w ++ [url].
Proof.
  unfold _download_fxnc, bind, get.
  destruct (net _ url) as [r|]; [|done].
  unfold raise_for_status.
  destruct ((400 <=? status_code r) && (status_code r <? 600)); [done|].
  unfold ret, open_wb. cbn [fs log_request].
  destruct (stat (fs w) path) as [[|old]|];
    destruct (stat (fs w) (pathlib.parent path)) as [[|?]|]; try done;
    unfold write; cbn [fs set_fs]; by rewrite lookup_insert_eq.
Qed.

(** So does looking up the latest release. *)
Lemma get_latest_version_requests w :
  requests (_get_latest_version w).2 =
    requests w ++ ["https://api.github.com/repos/fxnai/fxnc/releases/latest"].
Proof.
  unfold _get_latest_version, bind, get, raise_for_status, response_json,
    getitem, ret, raise.
  destruct (net _ _) as [r|]; [|done].
  destruct ((400 <=? status_code r) && (status_code r <? 600)); [done|].
  destruct (json r) as [[| | | | |d]|]; try done.
  destruct (d !! "tag_name"); reflexivity.
Qed.

(** *** The loop *)

Lemma for_each_app {A} (xs ys : list A) (body : A -> M unit) w :
  for_each (xs ++ ys) body w =
    match for_each xs body w with
    | (Ok _, w') => for_each ys body w'
    | (Raise e, w') => (Raise e, w')
    end.
Proof.
  revert w. induction xs as [|x xs IH]; intros w; [done|].
  cbn [app for_each]. unfold bind.
  destruct (body x w) as [[[]|e] w']; [apply IH | done].
Qed.

(** A loop that gets through a list of entries has requested their URLs in
    order, and nothing else. *)
Lemma for_each_download_requests (ls : list lib) w w' :
  for_each ls download w = (Ok tt, w') ->
  requests w' = requests w ++ (url <$> ls).
Proof.
  revert w. induction ls as [|l ls IH]; intros w.
  - intros [= <-]. by rewrite app_nil_r.
  - cbn [for_each]. unfold bind at 1.
    pose proof (download_requests (url l) (path l) w) as Hreq.
    destruct (_download_fxnc (url l) (path l) w) as [[[]|e] w1]; [|done].
    intros Hrest. rewrite (IH _ Hrest). cbn [snd] in Hreq. rewrite Hreq.
    by rewrite <- app_assoc.
Qed.

(** *** What a download does to the directory tree *)

Lemma stat_insert_file (f : gmap Path node) (path p : Path) data :
  stat f path <> Some Dir ->
  stat (<[path := File data]> f) p = Some Dir <-> stat f p = Some Dir.
Proof.
  intros Hfile. destruct p as [|part rest]; [done|]. cbn [stat].
  destruct (decide (path = part :: rest)) as [->|Hne].
  - rewrite lookup_insert_eq. split; [done | by intros ?].
  - by rewrite lookup_insert_ne.
Qed.

Lemma read_bytes_written (path : Path) data w :
  stat (fs w) path <> Some Dir ->
  read_bytes (set_fs (<[path := File data]> (fs w)) w) path = Some data.
Proof.
  intros Hfile. unfold read_bytes. cbn [fs set_fs].
  destruct path as [|part rest]; [by destruct Hfile|].
  cbn [stat]. by rewrite lookup_insert_eq.
Qed.

(** Whatever happens to it, a download changes no file but its own. *)
Lemma download_keeps_other_files url path w (p : Path) :
  p <> path ->
  read_bytes (_download_fxnc url path w).2 p = read_bytes w p.
Proof.
  intros Hne. unfold _download_fxnc, bind, get.
  destruct (net _ url) as [r|]; [|done].
  unfold raise_for_status.
  destruct ((400 <=? status_code r) && (status_code r <? 600)); [done|].
  unfold ret, open_wb. cbn [fs log_request].
  destruct (stat (fs w) path) as [[|old]|];
    destruct (stat (fs w) (pathlib.parent path)) as [[|?]|]; try done;
    unfold write; cbn [fs set_fs]; rewrite lookup_insert_eq;
    unfold read_bytes; cbn [snd print fs log_line set_fs];
    (destruct p as [|part rest]; [done|]); cbn [stat];
    by rewrite !lookup_insert_ne.
Qed.


(** C6: a download that goes through leaves exactly the bytes of the
    response body at the path, whatever was there before; the rest of the
    tree is untouched. *)
Theorem download_fxnc_writes_body url path w r :
  net (length (requests w)) url = Responded r ->
  ~ (400 <= status_code r < 600) ->
  stat (fs w) path <> Some Dir ->
  stat (fs w) (pathlib.parent path) = Some Dir ->
  exists w',
    _download_fxnc url path w = (Ok tt, w') /\
    read_bytes w' path = Some (content r) /\
    forall p, p <> path -> read_bytes w' p = read_bytes w p.
Proof.
  intros Hnet Hstatus Hfile Hparent.
  eexists. split; [by apply download_written|]. split.
  - by apply (read_bytes_written path (content r) (log_request url w)).
  - intros p Hne. unfold read_bytes. cbn [fs log_line set_fs log_request].
    destruct p as [|part rest]; [done|]. cbn [stat].
    by rewrite lookup_insert_ne.
Qed.

(** C9, as amended: when the request gets no answer, or an answer with a
    4xx or 5xx status, the download raises and the directory tree, the file
    at the path included, is what it was; nothing is printed. *)
Theorem download_fxnc_error_writes_nothing url path w :
  net (length (requests w)) url = Unreachable \/
  (exists r, net (length (requests w)) url = Responded r /\
             400 <= status_code r < 600) ->
  exists e w',
    _download_fxnc url path w = (Raise e, w') /\
    fs w' = fs w /\
    read_bytes w' path = read_bytes w path /\
    stdout w' = stdout w.
Proof.
  intros [Hnet | (r & Hnet & Hstatus)].
  - exists RequestException, (log_request url w).
    by rewrite download_unreachable.
  - exists (HTTPError (status_code r)), (log_request url w).
    by rewrite (download_http_error _ _ _ r).
Qed.

(** *** The manifest *)

(** C2: for every version string the manifest has seven entries; the URL
    of each contains the version string, and the path of each lies below
    Packages/ai.fxn.fxn3d/Plugins, in the platform directory that the
    layout fixes for it. *)
Theorem LIBS_seven_entries (version : string) :
  length (LIBS (PyStr version)) = 7%nat /\
  Forall (fun l => is_substring version (url l) /\
                   exists below, below <> [] /\
                     path l = ["Packages"; "ai.fxn.fxn3d"; "Plugins"] ++ below)
         (LIBS (PyStr version)) /\
  (pathlib.str ∘ path) <$> LIBS (PyStr version) =
    [ "Packages/ai.fxn.fxn3d/Plugins/Android/arm64-v8a/libFunction.so";
      "Packages/ai.fxn.fxn3d/Plugins/Android/armeabi-v7a/libFunction.so";
      "Packages/ai.fxn.fxn3d/Plugins/Android/x86/libFunction.so";
      "Packages/ai.fxn.fxn3d/Plugins/Android/x86_64/libFunction.so";
      "Packages/ai.fxn.fxn3d/Plugins/macOS/Function.dylib";
      "Packages/ai.fxn.fxn3d/Plugins/Web/libFunction.so";
      "Packages/ai.fxn.fxn3d/Plugins/Windows/Function.dll" ].
Proof.
  split; [reflexivity|]. split; [|reflexivity].
  unfold LIBS. cbn [fmt].
  repeat apply List.Forall_cons; try apply List.Forall_nil; cbn [url path];
    (split;
     [ exists "https://cdn.fxn.ai/edgefxn/"; eexists; reflexivity
     | eexists; split; [|reflexivity]; discriminate ]).
Qed.

(** C7: the manifest for v1.2.3 has the Windows entry, from
    .../edgefxn/v1.2.3/Function-win64.dll to .../Windows/Function.dll. *)
Theorem LIBS_windows_entry :
  exists l,
    LIBS (PyStr "v1.2.3") !! 6%nat = Some l /\
    url l = "https://cdn.fxn.ai/edgefxn/v1.2.3/Function-win64.dll" /\
    ends_with "edgefxn/v1.2.3/Function-win64.dll" (url l) /\
    pathlib.str (path l) = "Packages/ai.fxn.fxn3d/Plugins/Windows/Function.dll" /\
    ends_with "Windows/Function.dll" (pathlib.str (path l)).
Proof.
  eexists. split; [reflexivity|]. cbn [url path].
  split; [reflexivity|]. split; [by exists "https://cdn.fxn.ai/"|].
  split; [reflexivity|]. by exists "Packages/ai.fxn.fxn3d/Plugins/".
Qed.

(** C8: whatever the version, the seven paths of the manifest are
    pairwise distinct; hence the download of one entry, however it ends,
    leaves the file of every other entry as it was. *)
Theorem LIBS_paths_distinct (version : pyval) :
  NoDup (path <$> LIBS version) /\
  forall (i j : nat) (li lj : lib) (w : World),
    i <> j ->
    LIBS version !! i = Some li ->
    LIBS version !! j = Some lj ->
    path li <> path lj /\
    read_bytes (_download_fxnc (url lj) (path lj) w).2 (path li) =
      read_bytes w (path li).
Proof.
  assert (NoDup (path <$> LIBS version)) as Hdistinct.
  { change (path <$> LIBS version) with (path <$> LIBS PyNone).
    apply (bool_decide_unpack _). vm_compute. reflexivity. }
  split; [done|]. intros i j li lj w Hij Hi Hj.
  assert (path li <> path lj) as Hne.
  { intros Heq. apply Hij.
    apply (NoDup_lookup (path <$> LIBS version) i j (path li) Hdistinct).
    - by rewrite list_lookup_fmap, Hi.
    - by rewrite list_lookup_fmap, Hj, Heq. }
  split; [done|]. by apply download_keeps_other_files.
Qed.

(** C10: for every version string the entry for the Web build takes
    .../Function.wasm to a file named libFunction.so in the Web directory
    of the plugin tree. *)
Theorem LIBS_web_entry (version : string) :
  exists l,
    LIBS (PyStr version) !! 5%nat = Some l /\
    url l = "https://cdn.fxn.ai/edgefxn/" +:+ version +:+ "/Function.wasm" /\
    ends_with "Function.wasm" (url l) /\
    pathlib.name (path l) = "libFunction.so" /\
    pathlib.parent (path l) = LIB_PATH_BASE /: "Web".
Proof.
  eexists. split; [reflexivity|]. cbn [url path].
  split; [reflexivity|]. split; [|by split].
  cbn [fmt]. do 2 apply ends_with_app. by exists "/".
Qed.

(** *** The version *)

(** C4: a non-empty version given on the command line is returned as it
    is, and the world is left as it was, so no request is issued; without a
    version, or with an empty one, the releases endpoint is requested. *)
Theorem resolve_version_explicit (args_version : option string) (w : World) :
  (forall s, args_version = Some s -> s <> EmptyString ->
     resolve_version args_version w = (Ok (PyStr s), w)) /\
  (args_version = None \/ args_version = Some EmptyString ->
     requests (resolve_version args_version w).2 =
       requests w ++ ["https://api.github.com/repos/fxnai/fxnc/releases/latest"]).
Proof.
  split.
  - intros s -> Hs. unfold resolve_version. by destruct s.
  - intros [-> | ->]; apply get_latest_version_requests.
Qed.

(** C5: without a version on the command line, resolving the version
    issues one request, to the releases endpoint; when the answer has a 2xx
    status and its body is a JSON object with a tag_name field, the value of
    that field is returned as it is. *)
Theorem resolve_version_latest (w : World) (r : Response)
    (release : gmap string pyval) (tag : pyval) :
  requests (resolve_version None w).2 =
    requests w ++ ["https://api.github.com/repos/fxnai/fxnc/releases/latest"] /\
  (net (length (requests w))
       "https://api.github.com/repos/fxnai/fxnc/releases/latest" = Responded r ->
   200 <= status_code r < 300 ->
   json r = Some (PyDict release) ->
   release !! "tag_name" = Some tag ->
   resolve_version None w =
     (Ok tag,
      log_request "https://api.github.com/repos/fxnai/fxnc/releases/latest" w)).
Proof.
  split; [apply get_latest_version_requests|].
  intros Hnet Hstatus Hjson Htag.
  unfold resolve_version, _get_latest_version, bind.
  rewrite (get_responded _ _ _ Hnet).
  rewrite raise_for_status_passes by lia.
  unfold response_json. rewrite Hjson.
  unfold ret, getitem. by rewrite Htag.
Qed.

(** *** The run *)

(** C3, as amended: when the downloads before an entry of the manifest
    have gone through and the request for that entry is answered by a 4xx
    or 5xx status, the run ends there with the HTTP error.  The requests of
    the run are those for the entries up to and including that one, so no
    later entry is requested; the directory tree is the one the earlier
    downloads left; the exit status is not zero. *)
Theorem main_aborts_on_http_error args_version w version w0
    (before after : list lib) (l : lib) w1 (r : Response) :
  resolve_version args_version w = (Ok version, w0) ->
  LIBS version = before ++ l :: after ->
  for_each before download w0 = (Ok tt, w1) ->
  net (length (requests w1)) (url l) = Responded r ->
  400 <= status_code r < 600 ->
  exists w2,
    main args_version w = (Raise (HTTPError (status_code r)), w2) /\
    requests w2 = requests w0 ++ (url <$> before) ++ [url l] /\
    fs w2 = fs w1 /\
    run args_version w = (1, w2).
Proof.
  intros Hversion Hsplit Hbefore Hnet Hstatus.
  assert (main args_version w =
            (Raise (HTTPError (status_code r)), log_request (url l) w1))
    as Hmain.
  { unfold main, bind at 1. rewrite Hversion, Hsplit, for_each_app, Hbefore.
    cbn [for_each]. unfold bind.
    by rewrite (download_http_error _ _ _ r). }
  exists (log_request (url l) w1). split; [done|]. split; [|split; [done|]].
  - cbn [requests log_request].
    by rewrite (for_each_download_requests _ _ _ Hbefore), <- app_assoc.
  - unfold run. by rewrite Hmain.
Qed.

(** *** Every way a download can end *)

(** A download either goes through, and then the answer carried no error
    status, the path named no directory and its parent was one, or it raises
    having done nothing but issue its request. *)
Lemma download_outcome url path w :
  (exists r,
     net (length (requests w)) url = Responded r /\
     ~ (400 <= status_code r < 600) /\
     stat (fs w) path <> Some Dir /\
     stat (fs w) (pathlib.parent path) = Some Dir /\
     _download_fxnc url path w =
       (Ok tt,
        log_line ("Wrote " +:+ url +:+ " to path: " +:+ pathlib.str path)
          (set_fs (<[path := File (content r)]> (fs w)) (log_request url w)))) \/
  (exists e,
     _download_fxnc url path w = (Raise e, log_request url w) /\
     (net (length (requests w)) url = Unreachable \/
      (exists r, net (length (requests w)) url = Responded r /\
                 400 <= status_code r < 600) \/
      stat (fs w) path = Some Dir \/
      stat (fs w) (pathlib.parent path) <> Some Dir)).
Proof.
  destruct (net (length (requests w)) url) as [r|] eqn:Hnet.
  2:{ right. exists RequestException. split; [|by left].
      by apply download_unreachable. }
  destruct (decide (400 <= status_code r < 600)) as [Herr|Hok].
  { right. exists (HTTPError (status_code r)). split.
    - by apply download_http_error.
    - right. left. by exists r. }
  assert (stat (fs w) path = Some Dir \/ stat (fs w) path <> Some Dir)
    as [Hdir|Hfile].
  { destruct (stat (fs w) path) as [[|?]|]; [by left | by right | by right]. }
  { right. exists IsADirectoryError. split; [|by right; right; left].
    unfold _download_fxnc, bind.
    rewrite (get_responded _ _ _ Hnet), (raise_for_status_passes _ _ Hok).
    unfold open_wb. cbn [fs log_request]. by rewrite Hdir. }
  destruct (stat (fs w) (pathlib.parent path)) as [[|data]|] eqn:Hparent.
  - left. exists r. repeat (split; [done|]). by apply download_written.
  - right. exists NotADirectoryError. split; [|by right; right; right].
    unfold _download_fxnc, bind.
    rewrite (get_responded _ _ _ Hnet), (raise_for_status_passes _ _ Hok).
    unfold open_wb. cbn [fs log_request]. rewrite Hparent.
    by destruct (stat (fs w) path) as [[|?]|].
  - right. exists FileNotFoundError. split; [|by right; right; right].
    unfold _download_fxnc, bind.
    rewrite (get_responded _ _ _ Hnet), (raise_for_status_passes _ _ Hok).
    by rewrite open_wb_no_parent.
Qed.

(** X1: a download returns normally exactly when its request is answered
    without a 4xx or 5xx status, the path names no directory and the parent of
    the path is a directory. *)
Theorem download_fxnc_succeeds_iff url path w :
  (exists w', _download_fxnc url path w = (Ok tt, w')) <->
  (exists r,
     net (length (requests w)) url = Responded r /\
     ~ (400 <= status_code r < 600) /\
     stat (fs w) path <> Some Dir /\
     stat (fs w) (pathlib.parent path) = Some Dir).
Proof.
  split.
  - intros [w' Hrun].
    destruct (download_outcome url path w)
      as [(r & Hnet & Hok & Hfile & Hparent & _) | (e & Hraise & _)].
    + by exists r.
    + rewrite Hraise in Hrun. discriminate.
  - intros (r & Hnet & Hok & Hfile & Hparent).
    eexists. by apply (download_written url path w r).
Qed.


(** X3: a download whose path names a directory, or whose parent is a
    regular file, raises IsADirectoryError or NotADirectoryError after its
    request was answered; the entry at the path is what it was. *)
Theorem download_fxnc_path_in_the_way url path w r :
  net (length (requests w)) url = Responded r ->
  ~ (400 <= status_code r < 600) ->
  (stat (fs w) path = Some Dir ->
   _download_fxnc url path w = (Raise IsADirectoryError, log_request url w)) /\
  (stat (fs w) path <> Some Dir ->
   (exists data, stat (fs w) (pathlib.parent path) = Some (File data)) ->
   _download_fxnc url path w = (Raise NotADirectoryError, log_request url w)).
Proof.
  intros Hnet Hok. split.
  - intros Hdir. unfold _download_fxnc, bind.
    rewrite (get_responded _ _ _ Hnet), (raise_for_status_passes _ _ Hok).
    unfold open_wb. cbn [fs log_request]. by rewrite Hdir.
  - intros Hfile [data Hparent]. unfold _download_fxnc, bind.
    rewrite (get_responded _ _ _ Hnet), (raise_for_status_passes _ _ Hok).
    unfold open_wb. cbn [fs log_request]. rewrite Hparent.
    by destruct (stat (fs w) path) as [[|?]|].
Qed.

(** *** When the latest release cannot be told *)

(** Looking up the latest release changes the world by its one request,
    however it ends. *)
Lemma get_latest_version_world w :
  (_get_latest_version w).2 =
    log_request "https://api.github.com/repos/fxnai/fxnc/releases/latest" w.
Proof.
  unfold _get_latest_version, bind, get, raise_for_status, response_json,
    getitem, ret, raise.
  destruct (net _ _) as [r|]; [|done].
  destruct ((400 <=? status_code r) && (status_code r <? 600)); [done|].
  destruct (json r) as [[| | | | |d]|]; try done.
  destruct (d !! "tag_name"); reflexivity.
Qed.

(** X4: the status of the releases answer is checked before its body is
    looked at: with a 4xx or 5xx status the lookup raises the HTTP error
    whatever the body holds, a well-formed release object included. *)
Theorem get_latest_version_http_error w r :
  net (length (requests w))
      "https://api.github.com/repos/fxnai/fxnc/releases/latest" = Responded r ->
  400 <= status_code r < 600 ->
  _get_latest_version w =
    (Raise (HTTPError (status_code r)),
     log_request "https://api.github.com/repos/fxnai/fxnc/releases/latest" w).
Proof.
  intros Hnet Hstatus. unfold _get_latest_version, bind.
  by rewrite (get_responded _ _ _ Hnet), (raise_for_status_raises _ _ Hstatus).
Qed.

(** X5: a releases answer without an error status but without a usable tag
    makes the lookup raise: JSONDecodeError when the body is no JSON,
    KeyError when it is an object without tag_name, TypeError when it is JSON
    but no object. *)
Theorem get_latest_version_without_tag w r :
  net (length (requests w))
      "https://api.github.com/repos/fxnai/fxnc/releases/latest" = Responded r ->
  ~ (400 <= status_code r < 600) ->
  (json r = None ->
   (_get_latest_version w).1 = Raise JSONDecodeError) /\
  (forall d, json r = Some (PyDict d) -> d !! "tag_name" = None ->
   (_get_latest_version w).1 = Raise (KeyError "tag_name")) /\
  (forall v, json r = Some v -> (forall d, v <> PyDict d) ->
   (_get_latest_version w).1 = Raise TypeError).
Proof.
  intros Hnet Hok.
  assert (forall k : Response -> M pyval,
            (response <- get "https://api.github.com/repos/fxnai/fxnc/releases/latest" ;;
             raise_for_status response ;;; k response) w =
            k r (log_request
                   "https://api.github.com/repos/fxnai/fxnc/releases/latest" w))
    as Hstep.
  { intros k. unfold bind.
    by rewrite (get_responded _ _ _ Hnet), (raise_for_status_passes _ _ Hok). }
  unfold _get_latest_version. rewrite Hstep. unfold bind, response_json.
  split; [|split].
  - by intros ->.
  - intros d -> Hmissing. unfold ret, getitem. by rewrite Hmissing.
  - intros v -> Hother. unfold ret, getitem.
    destruct v as [| | | | |d]; try done. by destruct (Hother d).
Qed.

(** X6: when the version cannot be resolved the run ends there with that
    exception and exit status 1: the only request issued is the one to the
    releases endpoint, so nothing is asked of the CDN, and no file is written
    and no line printed. *)
Theorem main_aborts_when_version_lookup_fails args_version w e w' :
  resolve_version args_version w = (Raise e, w') ->
  main args_version w = (Raise e, w') /\
  run args_version w = (1, w') /\
  w' = log_request "https://api.github.com/repos/fxnai/fxnc/releases/latest" w.
Proof.
  intros Hversion.
  assert (main args_version w = (Raise e, w')) as Hmain.
  { unfold main, bind. by rewrite Hversion. }
  split; [done|]. split.
  - unfold run. by rewrite Hmain.
  - unfold resolve_version in Hversion.
    assert (_get_latest_version w = (Raise e, w')) as Hlatest.
    { destruct args_version as [[|c s]|]; done. }
    pose proof (get_latest_version_world w) as Hworld.
    by rewrite Hlatest in Hworld.
Qed.

(** *** A loop in which every download goes through *)

Lemma LIBS_NoDup (version : pyval) : NoDup (path <$> LIBS version).
Proof.
  change (path <$> LIBS version) with (path <$> LIBS PyNone).
  apply (bool_decide_unpack _). vm_compute. reflexivity.
Qed.

(** The [i]-th request of a loop started in [w] is the request number
    [length (requests w) + i] of the run. *)
Lemma for_each_download_all (ls : list lib) w :
  NoDup (path <$> ls) ->
  (forall (i : nat) l, ls !! i = Some l ->
     (exists r, net (length (requests w) + i)%nat (url l) = Responded r /\
                ~ (400 <= status_code r < 600)) /\
     stat (fs w) (path l) <> Some Dir /\
     stat (fs w) (pathlib.parent (path l)) = Some Dir) ->
  exists w',
    for_each ls download w = (Ok tt, w') /\
    requests w' = requests w ++ (url <$> ls) /\
    stdout w' = stdout w ++ (wrote_line <$> ls) /\
    (forall p, stat (fs w') p = Some Dir <-> stat (fs w) p = Some Dir) /\
    (forall (i : nat) l, ls !! i = Some l ->
       exists r, net (length (requests w) + i)%nat (url l) = Responded r /\
                 read_bytes w' (path l) = Some (content r)) /\
    (forall p, p ∉ path <$> ls -> read_bytes w' p = read_bytes w p).
Proof.
  revert w. induction ls as [|l ls IH]; intros w Hdistinct Hready.
  { exists w. cbn. rewrite !app_nil_r. repeat split; done. }
  apply NoDup_cons in Hdistinct as [Hfresh Hdistinct].
  destruct (Hready 0%nat l eq_refl) as ((r & Hnet & Hok) & Hfile & Hparent).
  rewrite Nat.add_0_r in Hnet.
  pose proof (download_written _ _ _ _ Hnet Hok Hfile Hparent) as Hfirst.
  set (w1 := log_line ("Wrote " +:+ url l +:+ " to path: " +:+ pathlib.str (path l))
               (set_fs (<[path l := File (content r)]> (fs w))
                  (log_request (url l) w))) in Hfirst.
  assert (forall p, stat (fs w1) p = Some Dir <-> stat (fs w) p = Some Dir)
    as Hdirs by (intros p; by apply stat_insert_file).
  assert (forall i : nat,
            (length (requests w1) + i)%nat = (length (requests w) + S i)%nat)
    as Hcount.
  { intros i. cbn [w1 requests log_line set_fs log_request].
    rewrite length_app. cbn. lia. }
  destruct (IH w1 Hdistinct) as (w' & Hrest & Hreq & Hout & Hdirs' & Hfiles & Hframe).
  { intros i l' Hl'.
    destruct (Hready (S i) l' Hl') as ((r' & Hnet' & Hok') & Hfile' & Hparent').
    split; [|split].
    - exists r'. by rewrite Hcount.
    - by rewrite Hdirs.
    - by apply Hdirs. }
  exists w'. split; [|split; [|split; [|split; [|split]]]].
  - cbn [for_each]. unfold bind. by rewrite Hfirst.
  - rewrite Hreq. cbn [w1 requests log_line set_fs log_request fmap list_fmap].
    by rewrite <- app_assoc.
  - rewrite Hout. cbn [w1 stdout log_line set_fs log_request].
    by rewrite <- app_assoc.
  - intros p. by rewrite Hdirs'.
  - intros [|i] l' Hl'.
    + injection Hl' as <-. exists r. rewrite Nat.add_0_r. split; [done|].
      rewrite (Hframe _ Hfresh).
      by apply (read_bytes_written (path l) (content r) (log_request (url l) w)).
    + destruct (Hfiles i l' Hl') as (r' & Hnet' & Hread).
      exists r'. by rewrite <- Hcount.
  - intros p Hp. apply not_elem_of_cons in Hp as [Hne Hp].
    rewrite (Hframe _ Hp). unfold read_bytes.
    cbn [w1 fs log_line set_fs log_request].
    destruct p as [|part rest]; [done|]. cbn [stat].
    by rewrite lookup_insert_ne.
Qed.

(** X7: when the version resolves, every request of the loop is answered
    without a 4xx or 5xx status, and every directory of the plugin tree is in
    place with no directory where a library goes, the run returns with exit
    status 0.  It has then requested the seven URLs in manifest order, printed
    one line for each, left every directory as it was, and each path of the
    manifest holds the body that was served for its URL. *)
Theorem main_downloads_everything args_version w version w0 :
  resolve_version args_version w = (Ok version, w0) ->
  (forall (i : nat) l, LIBS version !! i = Some l ->
     (exists r, net (length (requests w0) + i)%nat (url l) = Responded r /\
                ~ (400 <= status_code r < 600)) /\
     stat (fs w0) (path l) <> Some Dir /\
     stat (fs w0) (pathlib.parent (path l)) = Some Dir) ->
  exists w',
    main args_version w = (Ok tt, w') /\
    run args_version w = (0, w') /\
    requests w' = requests w0 ++ (url <$> LIBS version) /\
    stdout w' = stdout w0 ++ (wrote_line <$> LIBS version) /\
    (forall p, stat (fs w') p = Some Dir <-> stat (fs w0) p = Some Dir) /\
    (forall (i : nat) l, LIBS version !! i = Some l ->
       exists r, net (length (requests w0) + i)%nat (url l) = Responded r /\
                 read_bytes w' (path l) = Some (content r)).
Proof.
  intros Hversion Hready.
  destruct (for_each_download_all (LIBS version) w0 (LIBS_NoDup version) Hready)
    as (w' & Hloop & Hreq & Hout & Hdirs & Hfiles & _).
  assert (main args_version w = (Ok tt, w')) as Hmain.
  { unfold main, bind. by rewrite Hversion. }
  exists w'. repeat (split; [done|]). split; [|done].
  unfold run. by rewrite Hmain.
Qed.

(** *** A loop that is cut short *)



(** *** What the run leaves alone *)

Lemma download_keeps_dirs url path w (p : Path) :
  stat (fs (_download_fxnc url path w).2) p = Some Dir <->
  stat (fs w) p = Some Dir.
Proof.
  destruct (download_outcome url path w)
    as [(r & _ & _ & Hfile & _ & Hrun) | (e & Hrun & _)]; rewrite Hrun.
  - by apply stat_insert_file.
  - done.
Qed.

Lemma for_each_download_frame (ls : list lib) w :
  (forall p, stat (fs (for_each ls download w).2) p = Some Dir <->
             stat (fs w) p = Some Dir) /\
  (forall p, p ∉ path <$> ls ->
             read_bytes (for_each ls download w).2 p = read_bytes w p).
Proof.
  revert w. induction ls as [|l ls IH]; intros w; [done|].
  cbn [for_each]. unfold bind.
  pose proof (download_keeps_dirs (url l) (path l) w) as Hdirs.
  pose proof (download_keeps_other_files (url l) (path l) w) as Hfiles.
  destruct (_download_fxnc (url l) (path l) w) as [[[]|e] w1];
    cbn [snd] in Hdirs, Hfiles.
  - destruct (IH w1) as [IHdirs IHfiles]. split.
    + intros p. by rewrite IHdirs.
    + intros p Hp. apply not_elem_of_cons in Hp as [Hne Hp].
      rewrite (IHfiles _ Hp). by apply Hfiles.
  - split; [done|]. intros p Hp. apply not_elem_of_cons in Hp as [Hne Hp].
    by apply Hfiles.
Qed.

(** Resolving the version leaves the world alone or adds the one request. *)
Lemma resolve_version_world args_version w :
  (resolve_version args_version w).2 = w \/
  (resolve_version args_version w).2 =
    log_request "https://api.github.com/repos/fxnai/fxnc/releases/latest" w.
Proof.
  unfold resolve_version.
  destruct args_version as [[|c s]|];
    [right; apply get_latest_version_world | by left
    | right; apply get_latest_version_world].
Qed.

(** X9: however the run ends, it creates no directory and removes none, and
    every file that is not at one of the seven paths of the manifest reads
    as it did before. *)
Theorem main_touches_only_manifest_paths args_version w :
  (forall p, stat (fs (main args_version w).2) p = Some Dir <->
             stat (fs w) p = Some Dir) /\
  (forall version p, p ∉ path <$> LIBS version ->
             read_bytes (main args_version w).2 p = read_bytes w p).
Proof.
  assert (fs (resolve_version args_version w).2 = fs w) as Hfs.
  { by destruct (resolve_version_world args_version w) as [-> | ->]. }
  unfold main, bind.
  destruct (resolve_version args_version w) as [[v|e] w0]; cbn [snd] in Hfs.
  - destruct (for_each_download_frame (LIBS v) w0) as [Hdirs Hfiles]. split.
    + intros p. by rewrite Hdirs, Hfs.
    + intros version p Hp. rewrite (Hfiles p Hp). unfold read_bytes.
      by rewrite Hfs.
  - split.
    + intros p. cbn [snd]. by rewrite Hfs.
    + intros version p _. unfold read_bytes. cbn [snd]. by rewrite Hfs.
Qed.

(** *** What the output tells *)

(** However a loop ends, the lines it printed are those of the first [n]
    entries; it got through the list when [n] is its length, and otherwise it
    raised on entry number [n], the last one it requested. *)
Lemma for_each_download_progress (ls : list lib) w :
  exists n : nat,
    stdout (for_each ls download w).2 = stdout w ++ (wrote_line <$> take n ls) /\
    (((for_each ls download w).1 = Ok tt /\ n = length ls /\
      requests (for_each ls download w).2 = requests w ++ (url <$> ls)) \/
     (exists e, (for_each ls download w).1 = Raise e /\ (n < length ls)%nat /\
      requests (for_each ls download w).2 =
        requests w ++ (url <$> take (S n) ls))).
Proof.
  revert w. induction ls as [|l ls IH]; intros w.
  { exists 0%nat. cbn. rewrite !app_nil_r. split; [done|]. by left. }
  cbn [for_each]. unfold bind.
  destruct (download_outcome (url l) (path l) w)
    as [(r & _ & _ & _ & _ & Hfirst) | (e & Hfirst & _)]; rewrite Hfirst.
  - match goal with |- context [for_each ls _ ?w1] =>
      destruct (IH w1) as (n & Hout & Hend) end.
    exists (S n). split.
    + rewrite Hout. cbn [stdout log_line take fmap list_fmap].
      by rewrite <- app_assoc.
    + destruct Hend as [(Hok & -> & Hreq) | (e & Hraise & Hlt & Hreq)].
      * left. split; [done|]. split; [done|]. rewrite Hreq.
        cbn [requests log_line set_fs log_request fmap list_fmap].
        by rewrite <- app_assoc.
      * right. exists e. split; [done|]. split; [cbn; lia|]. rewrite Hreq.
        cbn [requests log_line set_fs log_request take fmap list_fmap].
        by rewrite <- app_assoc.
  - exists 0%nat. cbn [snd fst take fmap list_fmap stdout log_request].
    rewrite app_nil_r. split; [done|]. right. exists e.
    split; [done|]. split; [cbn; lia|]. done.
Qed.

(** X10: once the version is resolved, the lines the run prints are those
    of the first [n] entries of the manifest, in order.  Either the run
    returns, and then [n] is 7 and all seven URLs were requested, or it
    raises, and then fewer than seven lines were printed and the last URL
    requested is that of the entry after the last line. *)
Theorem main_output_tells_progress args_version w version w0 :
  resolve_version args_version w = (Ok version, w0) ->
  exists n : nat,
    stdout (main args_version w).2 =
      stdout w0 ++ (wrote_line <$> take n (LIBS version)) /\
    (((main args_version w).1 = Ok tt /\ n = 7%nat /\
      requests (main args_version w).2 =
        requests w0 ++ (url <$> LIBS version)) \/
     (exists e, (main args_version w).1 = Raise e /\ (n < 7)%nat /\
      requests (main args_version w).2 =
        requests w0 ++ (url <$> take (S n) (LIBS version)))).
Proof.
  intros Hversion.
  assert (main args_version w = for_each (LIBS version) download w0) as ->.
  { unfold main, bind. by rewrite Hversion. }
  apply (for_each_download_progress (LIBS version) w0).
Qed.

(** *** Where the requests go *)



(** *** The URLs of the manifest *)

Lemma string_app_inj (a b c : string) : a +:+ b = a +:+ c -> b = c.
Proof.
  induction a as [|ch a IH]; [done|].
  change (String ch (a +:+ b) = String ch (a +:+ c) -> b = c).
  intros [= Heq]. by apply IH.
Qed.

(** X12: whatever the version, the seven URLs of the manifest are pairwise
    distinct, so no artifact is fetched twice in a run. *)
Theorem LIBS_urls_distinct (version : pyval) :
  NoDup (url <$> LIBS version).
Proof.
  change (url <$> LIBS version) with
    ((fun name => "https://cdn.fxn.ai/edgefxn/" +:+ fmt version +:+ name) <$>
       [ "/libFunction-android-arm64-v8a.so";
         "/libFunction-android-armeabi-v7a.so";
         "/libFunction-android-x86.so";
         "/libFunction-android-x86_64.so";
         "/Function-macos.dylib";
         "/Function.wasm";
         "/Function-win64.dll" ]).
  apply NoDup_fmap_2.
  - intros a b Heq. by do 2 apply string_app_inj in Heq.
  - apply (bool_decide_unpack _). vm_compute. reflexivity.
Qed.

End Script.

(** ** Reading off an outcome *)

(** To settle what a computation returned it is enough to look at the first
    component: the world it left is whatever it left. *)
Lemma outcome_eq {A B} (p : A * B) (a : A) : p.1 = a -> p = (a, p.2).
Proof. destruct p as [a' b]. cbn. by intros ->. Qed.

Lemma run_outcome net str_other args_version w :
  run net str_other args_version w =
    (exit_status (main net str_other args_version w).1,
     (main net str_other args_version w).2).
Proof. unfold run. by destruct (main net str_other args_version w). Qed.

(** ** The statements on the sample worlds *)


(** With the whole tree in place and an older Function.dll on disk, the
    download replaces the old bytes by the body. *)
Lemma download_fxnc_writes_body_witness :
  exists w',
    _download_fxnc Sample.net_ok
      "https://cdn.fxn.ai/edgefxn/v1.2.3/Function-win64.dll"
      (LIB_PATH_BASE /: "Windows" /: "Function.dll") Sample.stale
    = (Ok tt, w') /\
    read_bytes w' (LIB_PATH_BASE /: "Windows" /: "Function.dll") = Some Sample.body /\
    forall p, p <> LIB_PATH_BASE /: "Windows" /: "Function.dll" ->
              read_bytes w' p = read_bytes Sample.stale p.
Proof.
  apply (download_fxnc_writes_body Sample.net_ok
           "https://cdn.fxn.ai/edgefxn/v1.2.3/Function-win64.dll"
           (LIB_PATH_BASE /: "Windows" /: "Function.dll") Sample.stale
           (Sample.binary 200)).
  - reflexivity.
  - cbn. lia.
  - vm_compute. discriminate.
  - vm_compute. reflexivity.
Defined.

(** A 404 for the Windows library leaves the older Function.dll alone. *)
Lemma download_fxnc_error_writes_nothing_witness :
  exists e w',
    _download_fxnc Sample.net_404_second
      "https://cdn.fxn.ai/edgefxn/v1.2.3/Function-win64.dll"
      (LIB_PATH_BASE /: "Windows" /: "Function.dll")
      (log_request "https://example.org/" Sample.stale)
    = (Raise e, w') /\
    fs w' = fs (log_request "https://example.org/" Sample.stale) /\
    read_bytes w' (LIB_PATH_BASE /: "Windows" /: "Function.dll") =
      read_bytes (log_request "https://example.org/" Sample.stale)
        (LIB_PATH_BASE /: "Windows" /: "Function.dll") /\
    stdout w' = stdout (log_request "https://example.org/" Sample.stale).
Proof.
  apply (download_fxnc_error_writes_nothing Sample.net_404_second).
  right. exists (Sample.binary 404). split.
  - reflexivity.
  - cbn. lia.
Defined.

(** [resolveVersion("v1.2.3")] is ["v1.2.3"], and the world is untouched. *)
Lemma resolve_version_explicit_witness :
  resolve_version Sample.net_ok (Some "v1.2.3") Sample.checkout
  = (Ok (PyStr "v1.2.3"), Sample.checkout) /\
  requests (resolve_version Sample.net_release None Sample.checkout).2
  = requests Sample.checkout ++
      ["https://api.github.com/repos/fxnai/fxnc/releases/latest"].
Proof.
  split.
  - apply (proj1 (resolve_version_explicit Sample.net_ok
                    (Some "v1.2.3") Sample.checkout) "v1.2.3").
    + reflexivity.
    + discriminate.
  - apply (proj2 (resolve_version_explicit Sample.net_release
                    None Sample.checkout)).
    left. reflexivity.
Defined.

(** Without a version, the tag of the latest release is what comes back. *)
Lemma resolve_version_latest_witness :
  resolve_version Sample.net_release None Sample.checkout
  = (Ok (PyStr "v1.2.3"),
     log_request "https://api.github.com/repos/fxnai/fxnc/releases/latest"
       Sample.checkout).
Proof.
  apply (proj2 (resolve_version_latest Sample.net_release
                  Sample.checkout Sample.release
                  {[ "tag_name" := PyStr "v1.2.3" ]} (PyStr "v1.2.3"))).
  - reflexivity.
  - cbn. lia.
  - reflexivity.
  - vm_compute. reflexivity.
Defined.

(** The second download, for Android armeabi-v7a, gets a 404: the run stops
    after two requests with exit status 1, and the arm64-v8a library written
    by the first download is still there. *)
Lemma main_aborts_on_http_error_witness :
  exists w2,
    main Sample.net_404_second Sample.str_other (Some "v1.2.3") Sample.checkout
    = (Raise (HTTPError 404), w2) /\
    requests w2 =
      [ "https://cdn.fxn.ai/edgefxn/v1.2.3/libFunction-android-arm64-v8a.so";
        "https://cdn.fxn.ai/edgefxn/v1.2.3/libFunction-android-armeabi-v7a.so" ] /\
    read_bytes w2 (LIB_PATH_BASE /: "Android" /: "arm64-v8a" /: "libFunction.so")
    = Some Sample.body /\
    run Sample.net_404_second Sample.str_other (Some "v1.2.3") Sample.checkout
    = (1, w2).
Proof.
  destruct (main_aborts_on_http_error Sample.net_404_second Sample.str_other
              (Some "v1.2.3") Sample.checkout (PyStr "v1.2.3") Sample.checkout
              (take 1 (LIBS Sample.str_other (PyStr "v1.2.3")))
              (drop 2 (LIBS Sample.str_other (PyStr "v1.2.3")))
              (mkLib "https://cdn.fxn.ai/edgefxn/v1.2.3/libFunction-android-armeabi-v7a.so"
                     (LIB_PATH_BASE /: "Android" /: "armeabi-v7a" /: "libFunction.so"))
              (for_each (take 1 (LIBS Sample.str_other (PyStr "v1.2.3")))
                 (fun l => _download_fxnc Sample.net_404_second (url l) (path l))
                 Sample.checkout).2
              (Sample.binary 404))
    as (w2 & Hmain & Hrequests & Hfs & Hrun).
  - reflexivity.
  - reflexivity.
  - apply outcome_eq. vm_compute. reflexivity.
  - vm_compute. reflexivity.
  - cbn. lia.
  - exists w2. split; [exact Hmain|]. split; [exact Hrequests|].
    split; [|exact Hrun].
    unfold read_bytes. rewrite Hfs. vm_compute. reflexivity.
Defined.

(** Downloading the Windows library does not touch the Web library. *)
Lemma LIBS_paths_distinct_witness :
  LIB_PATH_BASE /: "Web" /: "libFunction.so" <>
    LIB_PATH_BASE /: "Windows" /: "Function.dll" /\
  read_bytes
    (_download_fxnc Sample.net_ok
       "https://cdn.fxn.ai/edgefxn/v1.2.3/Function-win64.dll"
       (LIB_PATH_BASE /: "Windows" /: "Function.dll") Sample.stale).2
    (LIB_PATH_BASE /: "Web" /: "libFunction.so")
  = read_bytes Sample.stale (LIB_PATH_BASE /: "Web" /: "libFunction.so").
Proof.
  apply (proj2 (LIBS_paths_distinct Sample.net_ok Sample.str_other (PyStr "v1.2.3"))
           5%nat 6%nat
           (mkLib "https://cdn.fxn.ai/edgefxn/v1.2.3/Function.wasm"
                  (LIB_PATH_BASE /: "Web" /: "libFunction.so"))
           (mkLib "https://cdn.fxn.ai/edgefxn/v1.2.3/Function-win64.dll"
                  (LIB_PATH_BASE /: "Windows" /: "Function.dll"))
           Sample.stale).
  - lia.
  - reflexivity.
  - reflexivity.
Defined.

(** ** Further statements on the sample worlds *)


(** Downloading onto the Windows directory raises IsADirectoryError;
    downloading below the older Function.dll raises NotADirectoryError. *)
Lemma download_fxnc_path_in_the_way_witness :
  _download_fxnc Sample.net_ok "https://cdn.fxn.ai/edgefxn/v1.2.3/Function-win64.dll"
    (LIB_PATH_BASE /: "Windows") Sample.stale
  = (Raise IsADirectoryError,
     log_request "https://cdn.fxn.ai/edgefxn/v1.2.3/Function-win64.dll" Sample.stale) /\
  _download_fxnc Sample.net_ok "https://cdn.fxn.ai/edgefxn/v1.2.3/Function-win64.dll"
    (LIB_PATH_BASE /: "Windows" /: "Function.dll" /: "x64") Sample.stale
  = (Raise NotADirectoryError,
     log_request "https://cdn.fxn.ai/edgefxn/v1.2.3/Function-win64.dll" Sample.stale).
Proof.
  split.
  - apply (proj1 (download_fxnc_path_in_the_way Sample.net_ok
                    "https://cdn.fxn.ai/edgefxn/v1.2.3/Function-win64.dll"
                    (LIB_PATH_BASE /: "Windows") Sample.stale (Sample.binary 200)
                    eq_refl ltac:(cbn; lia))).
    vm_compute. reflexivity.
  - apply (proj2 (download_fxnc_path_in_the_way Sample.net_ok
                    "https://cdn.fxn.ai/edgefxn/v1.2.3/Function-win64.dll"
                    (LIB_PATH_BASE /: "Windows" /: "Function.dll" /: "x64")
                    Sample.stale (Sample.binary 200) eq_refl ltac:(cbn; lia))).
    + vm_compute. discriminate.
    + exists [x4d; x5a]. vm_compute. reflexivity.
Defined.

(** A 404 from the releases endpoint raises the HTTP error although its body
    carries a tag. *)
Lemma get_latest_version_http_error_witness :
  _get_latest_version Sample.net_not_found Sample.checkout
  = (Raise (HTTPError 404),
     log_request "https://api.github.com/repos/fxnai/fxnc/releases/latest"
       Sample.checkout).
Proof.
  apply (get_latest_version_http_error Sample.net_not_found Sample.checkout
           Sample.not_found).
  - reflexivity.
  - cbn. lia.
Defined.

(** A binary body, an object without a tag and an array as answers of the
    releases endpoint. *)
Lemma get_latest_version_without_tag_witness :
  (_get_latest_version Sample.net_ok Sample.checkout).1 = Raise JSONDecodeError /\
  (_get_latest_version Sample.net_untagged Sample.checkout).1
  = Raise (KeyError "tag_name") /\
  (_get_latest_version Sample.net_listing Sample.checkout).1 = Raise TypeError.
Proof.
  split; [|split].
  - apply (proj1 (get_latest_version_without_tag Sample.net_ok Sample.checkout
                    (Sample.binary 200) eq_refl ltac:(cbn; lia))).
    reflexivity.
  - apply (proj1 (proj2 (get_latest_version_without_tag Sample.net_untagged
                           Sample.checkout Sample.untagged eq_refl
                           ltac:(cbn; lia)))
             {[ "message" := PyStr "Not Found" ]}).
    + reflexivity.
    + vm_compute. reflexivity.
  - apply (proj2 (proj2 (get_latest_version_without_tag Sample.net_listing
                           Sample.checkout Sample.listing eq_refl
                           ltac:(cbn; lia)))
             (PyList [PyStr "v1.2.3"])).
    + reflexivity.
    + discriminate.
Defined.

(** Without a version and with a 404 from the releases endpoint the run
    ends with exit status 1 after that one request. *)
Lemma main_aborts_when_version_lookup_fails_witness :
  run Sample.net_not_found Sample.str_other None Sample.checkout
  = (1, log_request "https://api.github.com/repos/fxnai/fxnc/releases/latest"
          Sample.checkout).
Proof.
  destruct (main_aborts_when_version_lookup_fails Sample.net_not_found
              Sample.str_other None Sample.checkout (HTTPError 404)
              (log_request "https://api.github.com/repos/fxnai/fxnc/releases/latest"
                 Sample.checkout))
    as (_ & Hrun & _).
  - reflexivity.
  - exact Hrun.
Defined.

(** Without a version, with the releases endpoint and the CDN answering and
    the plugin tree in place, the run exits with status 0 after eight
    requests, and the Windows library is on disk. *)
Lemma main_downloads_everything_witness :
  exists w',
    run Sample.net_latest Sample.str_other None Sample.checkout = (0, w') /\
    requests w' =
      "https://api.github.com/repos/fxnai/fxnc/releases/latest"
        :: (url <$> LIBS Sample.str_other (PyStr "v1.2.3")) /\
    length (stdout w') = 7%nat /\
    read_bytes w' (LIB_PATH_BASE /: "Windows" /: "Function.dll") = Some Sample.body.
Proof.
  destruct (main_downloads_everything Sample.net_latest Sample.str_other
              None Sample.checkout (PyStr "v1.2.3")
              (log_request "https://api.github.com/repos/fxnai/fxnc/releases/latest"
                 Sample.checkout))
    as (w' & _ & Hrun & Hrequests & Hstdout & _ & Hfiles).
  - reflexivity.
  - intros i l Hl.
    do 7 (destruct i as [|i];
          [injection Hl as <-;
           (split; [exists (Sample.binary 200); split; [reflexivity | cbn; lia]|]);
           split; vm_compute; [discriminate | reflexivity] |]).
    discriminate.
  - exists w'. split; [exact Hrun|]. split; [exact Hrequests|]. split.
    + rewrite Hstdout. reflexivity.
    + destruct (Hfiles 6%nat _ eq_refl) as (r & Hnet & Hread).
      injection Hnet as <-. exact Hread.
Defined.


(** A 404 on the second download leaves a file outside the manifest, and
    the set of directories, as they were. *)
Lemma main_touches_only_manifest_paths_witness :
  read_bytes
    (main Sample.net_404_second Sample.str_other (Some "v1.2.3") Sample.checkout).2
    ["README.md"]
  = read_bytes Sample.checkout ["README.md"].
Proof.
  apply (proj2 (main_touches_only_manifest_paths Sample.net_404_second
                  Sample.str_other (Some "v1.2.3") Sample.checkout)
           (PyStr "v1.2.3") ["README.md"]).
  apply (bool_decide_unpack _). vm_compute. reflexivity.
Defined.

(** With a 404 on the second download one line is printed, and the second
    URL is the last one requested. *)
Lemma main_output_tells_progress_witness :
  exists n : nat,
    stdout (main Sample.net_404_second Sample.str_other (Some "v1.2.3")
              Sample.checkout).2
    = stdout Sample.checkout ++
      (wrote_line <$> take n (LIBS Sample.str_other (PyStr "v1.2.3"))) /\
    n = 1%nat.
Proof.
  destruct (main_output_tells_progress Sample.net_404_second Sample.str_other
              (Some "v1.2.3") Sample.checkout (PyStr "v1.2.3") Sample.checkout
              eq_refl)
    as (n & Hstdout & Hend).
  exists n. split; [exact Hstdout|].
  destruct Hend as [(Hok & _) | (e & _ & _ & Hrequests)].
  - vm_compute in Hok. discriminate.
  - destruct n as [|[|n]]; [| reflexivity |];
      vm_compute in Hrequests; discriminate.
Defined.


(** ** Where the specification and the script part ways *)


(** C3 fails on the script: the first download is answered by status 300,
    which is not a 2xx status, and the run goes on: all seven URLs are
    requested, the body of the 300 answer is on disk, and the exit status is
    zero. *)
Lemma main_continues_after_300 :
  Sample.net_300_first 0%nat
    "https://cdn.fxn.ai/edgefxn/v1.2.3/libFunction-android-arm64-v8a.so"
  = Responded (mkResponse 300 Sample.body None) /\
  ~ (200 <= 300 < 300) /\
  exists w',
    run Sample.net_300_first Sample.str_other (Some "v1.2.3") Sample.checkout
    = (0, w') /\
    requests w' = url <$> LIBS Sample.str_other (PyStr "v1.2.3") /\
    read_bytes w' (LIB_PATH_BASE /: "Android" /: "arm64-v8a" /: "libFunction.so")
    = Some Sample.body.
Proof.
  split; [reflexivity|]. split; [lia|].
  eexists. split.
  - rewrite run_outcome. apply outcome_eq. vm_compute. reflexivity.
  - split; vm_compute; reflexivity.
Qed.

(** C9 fails on the script: a request answered by status 300, which is not a
    2xx status, does not stop the download, and the body of the answer
    replaces the file that was at the path. *)
Lemma download_fxnc_writes_on_300 :
  Sample.net_300_first 0%nat "https://cdn.fxn.ai/edgefxn/v1.2.3/Function-win64.dll"
  = Responded (mkResponse 300 Sample.body None) /\
  ~ (200 <= 300 < 300) /\
  read_bytes Sample.stale (LIB_PATH_BASE /: "Windows" /: "Function.dll")
  = Some [x4d; x5a] /\
  exists w',
    _download_fxnc Sample.net_300_first
      "https://cdn.fxn.ai/edgefxn/v1.2.3/Function-win64.dll"
      (LIB_PATH_BASE /: "Windows" /: "Function.dll") Sample.stale
    = (Ok tt, w') /\
    read_bytes w' (LIB_PATH_BASE /: "Windows" /: "Function.dll") = Some Sample.body.
Proof.
  split; [reflexivity|]. split; [lia|]. split; [vm_compute; reflexivity|].
  eexists. split; [apply outcome_eq; vm_compute; reflexivity|].
  vm_compute. reflexivity.
Qed.
